(** * fastify-gracely: runtime detection and lifecycle wiring

    A shallow embedding of [src/index.ts] (the Fastify plugin
    [@zahoor/fastify-gracely]) and the properties of its runtime detection,
    of the options it hands to the graceful-server library, of the status
    object it decorates Fastify with and of its lifecycle listeners.

    JavaScript strings are embedded as [string]; the only string operations
    of the source are [===], truthiness and one regular-expression test whose
    pattern is made of ASCII letters. *)

From Stdlib Require Import ZArith String Ascii List Bool Lia.
From stdpp Require Import gmap strings list fin_maps.

Local Open Scope string_scope.

(* ------------------------------------------------------------------------- *)
(** ** Regular expression [/docker|kubepods|containerd|libpod/i]              *)
(* ------------------------------------------------------------------------- *)

Module Regex.

Definition is_lower (c : ascii) : bool :=
  ((97 <=? nat_of_ascii c) && (nat_of_ascii c <=? 122))%nat.

Definition is_upper (c : ascii) : bool :=
  ((65 <=? nat_of_ascii c) && (nat_of_ascii c <=? 90))%nat.

(** ECMAScript [Canonicalize] for an [ignoreCase] pattern without the
    unicode flag: a character is compared through its upper-case form, and a
    character outside ASCII is never mapped onto an ASCII one.  Characters
    from 128 on are left alone here; they can only be equal to themselves,
    which is all a pattern of ASCII letters can observe. *)
Definition canonicalize (c : ascii) : ascii :=
  if is_lower c then ascii_of_nat (nat_of_ascii c - 32) else c.

(** A literal alternative matched at the start of the input. *)
Fixpoint match_literal (pat s : string) : bool :=
  match pat, s with
  | EmptyString, _ => true
  | String _ _, EmptyString => false
  | String p pat', String c s' =>
      Ascii.eqb (canonicalize p) (canonicalize c) && match_literal pat' s'
  end.

(** The disjunction [a|b|...] at the start of the input. *)
Definition match_alternatives (alts : list string) (s : string) : bool :=
  existsb (fun pat => match_literal pat s) alts.

(** [RegExp.prototype.test] for an unanchored pattern: the match is tried
    at every start index, from the left. *)
Fixpoint test (alts : list string) (s : string) : bool :=
  match_alternatives alts s
  || match s with
     | EmptyString => false
     | String _ s' => test alts s'
     end.

End Regex.

(** The alternatives of the pattern in [detectGracelyRuntime]. *)
Definition container_signatures : list string :=
  ["docker"; "kubepods"; "containerd"; "libpod"].

(** Case-insensitive containment the way the specification words it: some
    substring of the contents equals the signature once both are put in
    lower case. *)
Definition lower_ascii (c : ascii) : ascii :=
  if Regex.is_upper c then ascii_of_nat (nat_of_ascii c + 32) else c.

Fixpoint to_lower (s : string) : string :=
  match s with
  | EmptyString => EmptyString
  | String c s' => String (lower_ascii c) (to_lower s')
  end.

Definition contains_ignoring_case (sig content : string) : Prop :=
  exists pre mid suf,
    content = pre ++ mid ++ suf /\ to_lower mid = to_lower sig.

(* ------------------------------------------------------------------------- *)
(** ** JavaScript values, the process world and the effect monad              *)
(* ------------------------------------------------------------------------- *)

(** Heap locations of JavaScript objects. *)
Abbreviation loc := nat.

(** A function the user put in the options; only its identity matters. *)
Abbreviation UserCallback := nat.

Inductive Value :=
| VUndefined
| VNull
| VBool (b : bool)
| VString (s : string)
| VError (message : string)
| VRef (l : loc).

(** Why [readFileSync] can throw. *)
Inductive FsError := ENOENT | EACCES | EISDIR | EIO.

Inductive Exn :=
| FsException (e : FsError)
| TypeError (message : string)
| FastifyError (code : string).

Inductive FsEntry :=
| File (content : string)
| Unreadable (e : FsError).

(** What the process can observe of its surroundings. *)
Record World := {
  process_env : gmap string string;
  files : gmap string FsEntry
}.

(** Observable actions, in the order they happen. *)
Inductive Event :=
| EnvGet (name : string)
| FsRead (path : string)
| Invoke (f : UserCallback) (args : list Value)
| LogInfo (message : string)
| Done.

Inductive LifecycleState := STARTING | READY | SHUTTING_DOWN | SHUTDOWN.

Inductive LifecycleEvent := EvReady | EvShuttingDown | EvShutdown.

(** [FastifyGracelyOptions]; an absent field is [None]. *)
Record FastifyGracelyOptions := {
  runtime : option string;
  timeout : option Z;
  livenessEndpoint : option string;
  readinessEndpoint : option string;
  containerEndpoint : option string;
  ready : option UserCallback;
  close : option UserCallback;
  error : option UserCallback;
  closing : option UserCallback
}.

(** The options object the plugin passes to [GracefulServer]. *)
Record GracefulOptions := {
  g_timeout : Z;
  g_syncClose : bool;
  g_closePromises : list UserCallback;
  g_healthCheck : bool;
  g_kubernetes : bool;
  g_livenessEndpoint : string;
  g_readinessEndpoint : string
}.

(** The closures the plugin creates, with what they capture. *)
Inductive Method :=
| GracelyReady.                       (* ready() { return graceful.isReady(); } *)

Inductive Getter :=
| GracelyGetter (gracely : loc).      (* () => gracely *)

Inductive Listener :=
| OnReady (opts : FastifyGracelyOptions)
| OnShuttingDown (opts : FastifyGracelyOptions)
| OnShutdown (opts : FastifyGracelyOptions).

Inductive Hook :=
| SetReadyHook.                       (* async () => { graceful.setReady(); } *)

Inductive Prop_ :=
| Data (v : Value)
| Fn (m : Method).

Record JsObject := {
  frozen : bool;
  props : gmap string Prop_
}.

Record Graceful := {
  g_options : GracefulOptions;
  g_state : LifecycleState;
  g_listeners : list (LifecycleEvent * Listener)
}.

Record Fastify := {
  instance_decorators : gmap string Getter;
  request_decorators : gmap string Getter;
  hooks : list (string * Hook);
  probe_routes : list string
}.

(** Everything the plugin reads or changes. *)
Record Realm := {
  world : World;
  trace : list Event;
  heap : list JsObject;
  fastify : Fastify;
  graceful : option Graceful
}.

Inductive Outcome (A : Type) :=
| Return (a : A)
| Throw (e : Exn).
Arguments Return {A} a.
Arguments Throw {A} e.

Definition M (A : Type) : Type := Realm -> Outcome A * Realm.

Definition ret {A} (a : A) : M A := fun r => (Return a, r).

Definition bind {A B} (m : M A) (k : A -> M B) : M B :=
  fun r =>
    match m r with
    | (Return a, r') => k a r'
    | (Throw e, r') => (Throw e, r')
    end.

Definition throw {A} (e : Exn) : M A := fun r => (Throw e, r).

(** [try { m } catch { h }] *)
Definition try_catch {A} (m : M A) (h : Exn -> M A) : M A :=
  fun r =>
    match m r with
    | (Return a, r') => (Return a, r')
    | (Throw e, r') => h e r'
    end.

Notation "'do' x <- m 'in' k" := (bind m (fun x => k))
  (at level 10, x name, m at level 100, k at level 200).
Notation "'run' m 'in' k" := (bind m (fun _ => k))
  (at level 10, m at level 100, k at level 200).

(** The realm after the events [es] have happened. *)
Definition log (es : list Event) (r : Realm) : Realm :=
  {| world := world r; trace := trace r ++ es; heap := heap r;
     fastify := fastify r; graceful := graceful r |}.

Definition emit (e : Event) : M unit :=
  fun r => (Return tt, log [e] r).

(** [process.env.NAME] *)
Definition env_get (name : string) : M (option string) :=
  run emit (EnvGet name) in
  fun r => (Return (process_env (world r) !! name), r).

(** [readFileSync(path, 'utf8')] *)
Definition readFileSync (path : string) : M string :=
  run emit (FsRead path) in
  fun r =>
    match files (world r) !! path with
    | Some (File content) => (Return content, r)
    | Some (Unreadable e) => (Throw (FsException e), r)
    | None => (Throw (FsException ENOENT), r)
    end.

(** Truthiness of a string: every string but the empty one. *)
Definition truthy_string (s : string) : bool := negb (s =? "").

(** Truthiness of [process.env.NAME]: [undefined] is falsy. *)
Definition truthy_env (v : option string) : bool :=
  match v with
  | Some s => truthy_string s
  | None => false
  end.

(** [process.env.NAME === lit] *)
Definition env_is (v : option string) (lit : string) : bool :=
  match v with
  | Some s => s =? lit
  | None => false
  end.

(* ------------------------------------------------------------------------- *)
(** ** Runtime detection                                                      *)
(* ------------------------------------------------------------------------- *)

(** [detectGracelyRuntime({ containerEndpoint })].  The inner computation
    gives [Some v] where the source returns [v] from inside the [try] block
    and [None] where control falls through to the final [return 'local']. *)
Definition detectGracelyRuntime (containerEndpoint : string) : M string :=
  do host <- env_get "KUBERNETES_SERVICE_HOST" in
  do k8s <- (if truthy_env host then ret true
             else do flag <- env_get "K8S" in ret (env_is flag "true")) in
  if k8s : bool then ret "kubernetes"
  else
    do early <- (if truthy_string containerEndpoint then
                   try_catch
                     (do content <- readFileSync containerEndpoint in
                      if Regex.test container_signatures content
                      then ret (Some "container")
                      else ret None)
                     (fun _ => ret None)
                 else ret None) in
    match early with
    | Some v => ret v
    | None => ret "local"
    end.

(** The paths read from the file system, oldest first. *)
Definition fs_reads (t : list Event) : list string :=
  omap (fun e => match e with FsRead p => Some p | _ => None end) t.

(** The environment variables read, oldest first. *)
Definition env_reads (t : list Event) : list string :=
  omap (fun e => match e with EnvGet n => Some n | _ => None end) t.

(* ------------------------------------------------------------------------- *)
(** ** The JavaScript heap and Fastify's decorators                           *)
(* ------------------------------------------------------------------------- *)

Definition with_heap (h : list JsObject) (r : Realm) : Realm :=
  {| world := world r; trace := trace r; heap := h;
     fastify := fastify r; graceful := graceful r |}.

Definition with_fastify (f : Fastify) (r : Realm) : Realm :=
  {| world := world r; trace := trace r; heap := heap r;
     fastify := f; graceful := graceful r |}.

Definition with_graceful (g : Graceful) (r : Realm) : Realm :=
  {| world := world r; trace := trace r; heap := heap r;
     fastify := fastify r; graceful := Some g |}.

(** An object literal: a new object at a new location. *)
Definition alloc (o : JsObject) : M loc :=
  fun r => (Return (length (heap r)), with_heap (heap r ++ [o]) r).

Definition freeze (o : JsObject) : JsObject :=
  {| frozen := true; props := props o |}.

(** [Object.freeze(l)]; it returns its argument. *)
Definition Object_freeze (l : loc) : M loc :=
  fun r => (Return l, with_heap (alter freeze l (heap r)) r).

(** [l.key = v] in strict mode (the source is an ES module). *)
Definition assign (l : loc) (key : string) (v : Value) : M unit :=
  fun r =>
    match heap r !! l with
    | None => (Throw (TypeError "not an object"), r)
    | Some o =>
        if frozen o
        then (Throw (TypeError "Cannot assign to read only property"), r)
        else (Return tt,
              with_heap
                (<[l := {| frozen := false;
                           props := <[key := Data v]> (props o) |}]> (heap r))
                r)
    end.

(** [delete l.key] in strict mode. *)
Definition delete_prop (l : loc) (key : string) : M unit :=
  fun r =>
    match heap r !! l with
    | None => (Throw (TypeError "not an object"), r)
    | Some o =>
        match props o !! key with
        | None => (Return tt, r)
        | Some _ =>
            if frozen o
            then (Throw (TypeError "Cannot delete property"), r)
            else (Return tt,
                  with_heap
                    (<[l := {| frozen := false;
                               props := delete key (props o) |}]> (heap r))
                    r)
        end
    end.

(** [fastify.decorate(name, { getter })]: Fastify refuses a name twice. *)
Definition decorate (name : string) (g : Getter) : M unit :=
  fun r =>
    let f := fastify r in
    match instance_decorators f !! name with
    | Some _ => (Throw (FastifyError "FST_ERR_DEC_ALREADY_PRESENT"), r)
    | None =>
        (Return tt,
         with_fastify
           {| instance_decorators := <[name := g]> (instance_decorators f);
              request_decorators := request_decorators f;
              hooks := hooks f;
              probe_routes := probe_routes f |} r)
    end.

(** [fastify.decorateRequest(name, { getter })] *)
Definition decorateRequest (name : string) (g : Getter) : M unit :=
  fun r =>
    let f := fastify r in
    match request_decorators f !! name with
    | Some _ => (Throw (FastifyError "FST_ERR_DEC_ALREADY_PRESENT"), r)
    | None =>
        (Return tt,
         with_fastify
           {| instance_decorators := instance_decorators f;
              request_decorators := <[name := g]> (request_decorators f);
              hooks := hooks f;
              probe_routes := probe_routes f |} r)
    end.

(** [fastify.addHook(name, h)] *)
Definition addHook (name : string) (h : Hook) : M unit :=
  fun r =>
    let f := fastify r in
    (Return tt,
     with_fastify
       {| instance_decorators := instance_decorators f;
          request_decorators := request_decorators f;
          hooks := hooks f ++ [(name, h)];
          probe_routes := probe_routes f |} r).

Definition run_getter (g : Getter) : Value :=
  match g with
  | GracelyGetter l => VRef l
  end.

Definition read_decorator (d : gmap string Getter) (name : string) : Value :=
  match d !! name with
  | Some g => run_getter g
  | None => VUndefined
  end.

(** [fastify.name] for a decorated name *)
Definition instance_get (name : string) (r : Realm) : Value :=
  read_decorator (instance_decorators (fastify r)) name.

(** [request.name] for a decorated name *)
Definition request_get (name : string) (r : Realm) : Value :=
  read_decorator (request_decorators (fastify r)) name.

(** [v.key] where [key] holds data *)
Definition get_data (v : Value) (key : string) (r : Realm) : option Value :=
  match v with
  | VRef l =>
      match heap r !! l with
      | Some o =>
          match props o !! key with
          | Some (Data d) => Some d
          | _ => None
          end
      | None => None
      end
  | _ => None
  end.

(* ------------------------------------------------------------------------- *)
(** ** The graceful-server library                                            *)
(* ------------------------------------------------------------------------- *)

(** Modelled from the spec: [GracefulServer(server, options)] of the package
    [@gquittet/graceful-server], which the source imports and which is not
    part of this repository.  Construction leaves the lifecycle in
    [STARTING] with no listener, and the two probe routes exist exactly when
    the health check is switched on (sections 4.2 and 4.3 of the
    specification). *)
Definition GracefulServer (o : GracefulOptions) : M unit :=
  fun r =>
    let f := fastify r in
    (Return tt,
     with_graceful
       {| g_options := o; g_state := STARTING; g_listeners := [] |}
       (with_fastify
          {| instance_decorators := instance_decorators f;
             request_decorators := request_decorators f;
             hooks := hooks f;
             probe_routes :=
               if g_healthCheck o
               then [g_livenessEndpoint o; g_readinessEndpoint o]
               else [] |} r)).

(** Modelled from the spec: [graceful.on(event, listener)], the
    subscription mechanism of section 4.2; listeners run in the order they
    were added. *)
Definition graceful_on (ev : LifecycleEvent) (l : Listener) : M unit :=
  fun r =>
    match graceful r with
    | None => (Throw (TypeError "graceful is undefined"), r)
    | Some g =>
        (Return tt,
         with_graceful
           {| g_options := g_options g; g_state := g_state g;
              g_listeners := g_listeners g ++ [(ev, l)] |} r)
    end.

Definition is_READY (s : LifecycleState) : bool :=
  match s with READY => true | _ => false end.

(** Modelled from the spec: [graceful.isReady()], true exactly in state
    [READY] (section 4.2). *)
Definition isReady : M bool :=
  fun r =>
    match graceful r with
    | None => (Throw (TypeError "graceful is undefined"), r)
    | Some g => (Return (is_READY (g_state g)), r)
    end.

Definition set_state (s : LifecycleState) : M unit :=
  fun r =>
    match graceful r with
    | None => (Throw (TypeError "graceful is undefined"), r)
    | Some g =>
        (Return tt,
         with_graceful
           {| g_options := g_options g; g_state := s;
              g_listeners := g_listeners g |} r)
    end.

Definition get_state : M LifecycleState :=
  fun r =>
    match graceful r with
    | None => (Throw (TypeError "graceful is undefined"), r)
    | Some g => (Return (g_state g), r)
    end.

Definition same_event (a b : LifecycleEvent) : bool :=
  match a, b with
  | EvReady, EvReady | EvShuttingDown, EvShuttingDown
  | EvShutdown, EvShutdown => true
  | _, _ => false
  end.

(** [opts.f()] when [typeof opts.f === 'function'] *)
Definition call_if_function (f : option UserCallback) (args : list Value)
  : M unit :=
  match f with
  | Some cb => emit (Invoke cb args)
  | None => ret tt
  end.

Definition log_info (message : string) : M unit := emit (LogInfo message).

(** The bodies of the three listeners the plugin registers. *)
Definition run_listener (l : Listener) (payload : Value) : M unit :=
  match l with
  | OnReady opts =>
      run call_if_function (ready opts) [] in
      log_info "Server is ready ..."
  | OnShuttingDown opts =>
      run call_if_function (close opts) [] in
      log_info "Server is closed !!!"
  | OnShutdown opts =>
      call_if_function (error opts) [payload]
  end.

Fixpoint run_listeners (ls : list (LifecycleEvent * Listener))
  (ev : LifecycleEvent) (payload : Value) : M unit :=
  match ls with
  | [] => ret tt
  | (ev', l) :: rest =>
      run (if same_event ev' ev then run_listener l payload else ret tt) in
      run_listeners rest ev payload
  end.

(** Modelled from the spec: the library emitting a lifecycle event to the
    listeners subscribed to it (section 4.2). *)
Definition fire (ev : LifecycleEvent) (payload : Value) : M unit :=
  fun r =>
    match graceful r with
    | None => (Throw (TypeError "graceful is undefined"), r)
    | Some g => run_listeners (g_listeners g) ev payload r
    end.

(** Modelled from the spec: [graceful.setReady()], the [markReady]
    transition of section 4.2: from [STARTING] to [READY], firing the ready
    event; without effect in every other state. *)
Definition setReady : M unit :=
  do s <- get_state in
  match s with
  | STARTING => run set_state READY in fire EvReady VUndefined
  | _ => ret tt
  end.

(** Modelled from the spec: [beginShutdown] of section 4.2, which the
    library runs on a termination signal. *)
Definition beginShutdown : M unit :=
  do s <- get_state in
  match s with
  | STARTING | READY =>
      run set_state SHUTTING_DOWN in fire EvShuttingDown VUndefined
  | _ => ret tt
  end.

(** Modelled from the spec: [markShutdown(error)] of section 4.2; the error
    is [undefined] or [null] on a clean shutdown. *)
Definition markShutdown (err : Value) : M unit :=
  do s <- get_state in
  match s with
  | SHUTTING_DOWN => run set_state SHUTDOWN in fire EvShutdown err
  | _ => ret tt
  end.

Definition run_hook (h : Hook) : M unit :=
  match h with
  | SetReadyHook => setReady
  end.

Fixpoint run_hooks (hs : list (string * Hook)) (name : string) : M unit :=
  match hs with
  | [] => ret tt
  | (n, h) :: rest =>
      run (if n =? name then run_hook h else ret tt) in
      run_hooks rest name
  end.

(** Fastify running its [onReady] hooks. *)
Definition fastify_onReady : M unit :=
  fun r => run_hooks (hooks (fastify r)) "onReady" r.

Definition run_method (m : Method) : M Value :=
  match m with
  | GracelyReady => do b <- isReady in ret (VBool b)
  end.

(** [v.key()] *)
Definition call_method (v : Value) (key : string) : M Value :=
  fun r =>
    match v with
    | VRef l =>
        match heap r !! l with
        | Some o =>
            match props o !! key with
            | Some (Fn m) => run_method m r
            | _ => (Throw (TypeError "not a function"), r)
            end
        | None => (Throw (TypeError "not an object"), r)
        end
    | _ => (Throw (TypeError "not an object"), r)
    end.

(* ------------------------------------------------------------------------- *)
(** ** The plugin                                                             *)
(* ------------------------------------------------------------------------- *)

Definition or_default {A} (d : A) (o : option A) : A :=
  match o with
  | Some a => a
  | None => d
  end.

(** [typeof opts.closing === 'function' ? [opts.closing] : []] *)
Definition closePromises_of (c : option UserCallback) : list UserCallback :=
  match c with
  | Some f => [f]
  | None => []
  end.

(** [plugin(fastify, opts, done)] *)
Definition plugin (opts : FastifyGracelyOptions) : M unit :=
  let runtime_ := or_default "auto" (runtime opts) in
  let timeout_ := or_default 10000%Z (timeout opts) in
  let livenessEndpoint_ := or_default "/live" (livenessEndpoint opts) in
  let readinessEndpoint_ := or_default "/ready" (readinessEndpoint opts) in
  let containerEndpoint_ :=
    or_default "/proc/1/cgroup" (containerEndpoint opts) in
  do env <- (if runtime_ =? "auto"
             then detectGracelyRuntime containerEndpoint_
             else ret runtime_) in
  let isKubernetes := env =? "kubernetes" in
  run GracefulServer
        {| g_timeout := timeout_;
           g_syncClose := false;
           g_closePromises := closePromises_of (closing opts);
           g_healthCheck := isKubernetes;
           g_kubernetes := isKubernetes;
           g_livenessEndpoint := livenessEndpoint_;
           g_readinessEndpoint := readinessEndpoint_ |} in
  do literal <- alloc {| frozen := false;
                         props := {[ "runtime" := Data (VString env);
                                     "ready" := Fn GracelyReady ]} |} in
  do gracely <- Object_freeze literal in
  run decorate "gracely" (GracelyGetter gracely) in
  run decorateRequest "gracely" (GracelyGetter gracely) in
  run graceful_on EvReady (OnReady opts) in
  run graceful_on EvShuttingDown (OnShuttingDown opts) in
  run graceful_on EvShutdown (OnShutdown opts) in
  run addHook "onReady" SetReadyHook in
  emit Done.

(** A process in world [w] with a new Fastify instance and nothing else. *)
Definition boot (w : World) : Realm :=
  {| world := w; trace := []; heap := [];
     fastify := {| instance_decorators := ∅; request_decorators := ∅;
                   hooks := []; probe_routes := [] |};
     graceful := None |}.

(** The process once the plugin has run with [opts] in world [w]. *)
Definition registered (opts : FastifyGracelyOptions) (w : World) : Realm :=
  snd (plugin opts (boot w)).

(** What the program around the plugin can do once it is registered. *)
Inductive Action :=
| Assign (l : loc) (key : string) (v : Value)
| Delete (l : loc) (key : string)
| Allocate (o : JsObject)
| Decorate (name : string) (g : Getter)
| DecorateRequest (name : string) (g : Getter)
| CallReady
| FastifyReady
| BeginShutdown
| MarkShutdown (err : Value).

Definition perform (a : Action) : M unit :=
  match a with
  | Assign l key v => assign l key v
  | Delete l key => delete_prop l key
  | Allocate o => run alloc o in ret tt
  | Decorate name g => decorate name g
  | DecorateRequest name g => decorateRequest name g
  | CallReady =>
      fun r =>
        (run call_method (instance_get "gracely" r) "ready" in ret tt) r
  | FastifyReady => fastify_onReady
  | BeginShutdown => beginShutdown
  | MarkShutdown err => markShutdown err
  end.

(** The actions one after the other; an exception ends its own action only. *)
Fixpoint perform_all (acts : list Action) (r : Realm) : Realm :=
  match acts with
  | [] => r
  | a :: rest => perform_all rest (snd (perform a r))
  end.

(** The value of [process.env.KUBERNETES_SERVICE_HOST] and of
    [process.env.K8S] in a realm. *)
Definition service_host (r : Realm) : option string :=
  process_env (world r) !! "KUBERNETES_SERVICE_HOST".

Definition k8s_flag (r : Realm) : option string :=
  process_env (world r) !! "K8S".

(** What the marker file makes of a run that reaches the file read. *)
Definition marker_verdict (r : Realm) (path : string) : string :=
  match files (world r) !! path with
  | Some (File content) =>
      if Regex.test container_signatures content
      then "container" else "local"
  | _ => "local"
  end.


(** The expression that settles [env] in the plugin:
    [runtime === 'auto' ? detectGracelyRuntime({ containerEndpoint }) : runtime]
    with the defaults of the destructuring. *)
Definition resolve (opts : FastifyGracelyOptions) : M string :=
  let runtime_ := or_default "auto" (runtime opts) in
  if runtime_ =? "auto"
  then detectGracelyRuntime
         (or_default "/proc/1/cgroup" (containerEndpoint opts))
  else ret runtime_.

(** The frozen status object for environment [env]. *)
Definition gracely_object (env : string) : JsObject :=
  {| frozen := true;
     props := {[ "runtime" := Data (VString env);
                 "ready" := Fn GracelyReady ]} |}.

(** The options the plugin builds for [GracefulServer] once [env] is known. *)
Definition graceful_options (opts : FastifyGracelyOptions) (env : string)
  : GracefulOptions :=
  {| g_timeout := or_default 10000%Z (timeout opts);
     g_syncClose := false;
     g_closePromises := closePromises_of (closing opts);
     g_healthCheck := env =? "kubernetes";
     g_kubernetes := env =? "kubernetes";
     g_livenessEndpoint := or_default "/live" (livenessEndpoint opts);
     g_readinessEndpoint := or_default "/ready" (readinessEndpoint opts) |}.

(** The realm the plugin leaves behind in a new process: one frozen object,
    both decorators on it, three listeners, one hook. *)
Definition wired (opts : FastifyGracelyOptions) (env : string)
  (es : list Event) (w : World) : Realm :=
  {| world := w;
     trace := es;
     heap := [gracely_object env];
     fastify :=
       {| instance_decorators := {[ "gracely" := GracelyGetter 0 ]};
          request_decorators := {[ "gracely" := GracelyGetter 0 ]};
          hooks := [("onReady", SetReadyHook)];
          probe_routes :=
            if env =? "kubernetes"
            then [or_default "/live" (livenessEndpoint opts);
                  or_default "/ready" (readinessEndpoint opts)]
            else [] |};
     graceful :=
       Some {| g_options := graceful_options opts env;
               g_state := STARTING;
               g_listeners := [(EvReady, OnReady opts);
                               (EvShuttingDown, OnShuttingDown opts);
                               (EvShutdown, OnShutdown opts)] |} |}.

(** The listeners the plugin registers, in the order of the source. *)
Definition plugin_listeners (opts : FastifyGracelyOptions)
  : list (LifecycleEvent * Listener) :=
  [(EvReady, OnReady opts);
   (EvShuttingDown, OnShuttingDown opts);
   (EvShutdown, OnShutdown opts)].

(** What stays true of a realm once the plugin has run in it: the status
    object sits frozen at its location, both decorators give that location,
    and the hook, the routes, the options and the listeners are the ones of
    registration.  Only the lifecycle state and the trace move. *)
Record wired_up (opts : FastifyGracelyOptions) (env : string) (r : Realm)
  : Prop := {
  wu_heap : heap r !! 0 = Some (gracely_object env);
  wu_instance :
    instance_decorators (fastify r) !! "gracely" = Some (GracelyGetter 0);
  wu_request :
    request_decorators (fastify r) !! "gracely" = Some (GracelyGetter 0);
  wu_hooks : hooks (fastify r) = [("onReady", SetReadyHook)];
  wu_routes :
    probe_routes (fastify r) =
      if env =? "kubernetes"
      then [or_default "/live" (livenessEndpoint opts);
            or_default "/ready" (readinessEndpoint opts)]
      else [];
  wu_graceful :
    exists st,
      graceful r = Some {| g_options := graceful_options opts env;
                           g_state := st;
                           g_listeners := plugin_listeners opts |}
}.

(** The lifecycle state of a realm; [STARTING] before the library exists. *)
Definition lifecycle (r : Realm) : LifecycleState :=
  match graceful r with
  | Some g => g_state g
  | None => STARTING
  end.

(** The events of calling an optional user callback. *)
Definition callback_events (f : option UserCallback) (args : list Value)
  : list Event :=
  match f with
  | Some cb => [Invoke cb args]
  | None => []
  end.

(** The events of one listener body. *)
Definition listener_events (l : Listener) (payload : Value) : list Event :=
  match l with
  | OnReady opts =>
      callback_events (ready opts) [] ++ [LogInfo "Server is ready ..."]
  | OnShuttingDown opts =>
      callback_events (close opts) [] ++ [LogInfo "Server is closed !!!"]
  | OnShutdown opts => callback_events (error opts) [payload]
  end.

Fixpoint fired_events (ls : list (LifecycleEvent * Listener))
  (ev : LifecycleEvent) (payload : Value) : list Event :=
  match ls with
  | [] => []
  | (ev', l) :: rest =>
      (if same_event ev' ev then listener_events l payload else [])
      ++ fired_events rest ev payload
  end.

(** Events that touch neither the environment nor the file system. *)
Definition quiet (es : list Event) : Prop :=
  env_reads es = [] /\ fs_reads es = [].

(** The runtime values of the type [GracelyRuntime]. *)
Definition recognized_runtime (s : string) : bool :=
  (s =? "none") || (s =? "auto") || (s =? "local") || (s =? "container")
  || (s =? "kubernetes").

(** [undefined] and [null]: no error. *)
Definition is_none (v : Value) : bool :=
  match v with
  | VUndefined | VNull => true
  | _ => false
  end.

(** Whether callback [f] was invoked in a trace. *)
Definition invoked (f : UserCallback) (t : list Event) : bool :=
  existsb (fun e => match e with
                    | Invoke g _ => Nat.eqb f g
                    | _ => false
                    end) t.

(** [fastify.gracely.ready()] *)
Definition query_ready (r : Realm) : Outcome Value :=
  fst (call_method (instance_get "gracely" r) "ready" r).

(** [fastify.gracely.runtime] *)
Definition query_runtime (r : Realm) : option Value :=
  get_data (instance_get "gracely" r) "runtime" r.

(* ------------------------------------------------------------------------- *)
(** ** Listeners whose user callbacks may throw                               *)
(* ------------------------------------------------------------------------- *)

(** The listener bodies and the lifecycle once more, for user functions
    that need not return: [ends f args] is [Some e] where calling [f] with
    [args] throws [e] and [None] where the call returns.  An exception
    leaves the listener at the call, so what follows the call in the
    listener does not run; it leaves the emitting transition and the hook
    as well. *)
Module Throwing.

Section Ends.

Variable ends : nat -> list Value -> option Exn.

(** [opts.f(args)] when [typeof opts.f === 'function'] *)
Definition call_if_function (f : option UserCallback) (args : list Value)
  : M unit :=
  match f with
  | Some cb =>
      run emit (Invoke cb args) in
      match ends cb args with
      | Some e => throw e
      | None => ret tt
      end
  | None => ret tt
  end.

Definition run_listener (l : Listener) (payload : Value) : M unit :=
  match l with
  | OnReady opts =>
      run call_if_function (ready opts) [] in
      log_info "Server is ready ..."
  | OnShuttingDown opts =>
      run call_if_function (close opts) [] in
      log_info "Server is closed !!!"
  | OnShutdown opts =>
      call_if_function (error opts) [payload]
  end.

Fixpoint run_listeners (ls : list (LifecycleEvent * Listener))
  (ev : LifecycleEvent) (payload : Value) : M unit :=
  match ls with
  | [] => ret tt
  | (ev', l) :: rest =>
      run (if same_event ev' ev then run_listener l payload else ret tt) in
      run_listeners rest ev payload
  end.

Definition fire (ev : LifecycleEvent) (payload : Value) : M unit :=
  fun r =>
    match graceful r with
    | None => (Throw (TypeError "graceful is undefined"), r)
    | Some g => run_listeners (g_listeners g) ev payload r
    end.

Definition setReady : M unit :=
  do s <- get_state in
  match s with
  | STARTING => run set_state READY in fire EvReady VUndefined
  | _ => ret tt
  end.

Definition beginShutdown : M unit :=
  do s <- get_state in
  match s with
  | STARTING | READY =>
      run set_state SHUTTING_DOWN in fire EvShuttingDown VUndefined
  | _ => ret tt
  end.

Definition markShutdown (err : Value) : M unit :=
  do s <- get_state in
  match s with
  | SHUTTING_DOWN => run set_state SHUTDOWN in fire EvShutdown err
  | _ => ret tt
  end.

Definition run_hook (h : Hook) : M unit :=
  match h with
  | SetReadyHook => setReady
  end.

Fixpoint run_hooks (hs : list (string * Hook)) (name : string) : M unit :=
  match hs with
  | [] => ret tt
  | (n, h) :: rest =>
      run (if n =? name then run_hook h else ret tt) in
      run_hooks rest name
  end.

Definition fastify_onReady : M unit :=
  fun r => run_hooks (hooks (fastify r)) "onReady" r.


End Ends.

End Throwing.



(** Events that are a read of the environment or of the file system. *)
Definition is_read (e : Event) : bool :=
  match e with
  | EnvGet _ | FsRead _ => true
  | _ => false
  end.

(* ------------------------------------------------------------------------- *)
(** ** Sample configurations and worlds                                       *)
(* ------------------------------------------------------------------------- *)

(** [{}]: every option left to its default. *)
Definition default_options : FastifyGracelyOptions :=
  {| runtime := None; timeout := None; livenessEndpoint := None;
     readinessEndpoint := None; containerEndpoint := None;
     ready := None; close := None; error := None; closing := None |}.

(** [{ runtime: 'none' }] *)
Definition runtime_none : FastifyGracelyOptions :=
  {| runtime := Some "none"; timeout := None; livenessEndpoint := None;
     readinessEndpoint := None; containerEndpoint := None;
     ready := None; close := None; error := None; closing := None |}.

(** [{ runtime: 'bogus', timeout: -1 }] *)
Definition bogus_options : FastifyGracelyOptions :=
  {| runtime := Some "bogus"; timeout := Some (-1)%Z;
     livenessEndpoint := None; readinessEndpoint := None;
     containerEndpoint := None;
     ready := None; close := None; error := None; closing := None |}.

(** [{ containerEndpoint: '' }] *)
Definition no_marker_options : FastifyGracelyOptions :=
  {| runtime := None; timeout := None; livenessEndpoint := None;
     readinessEndpoint := None; containerEndpoint := Some "";
     ready := None; close := None; error := None; closing := None |}.

(** [{ error: f }] where [f] is callback number 3 *)
Definition error_only : FastifyGracelyOptions :=
  {| runtime := Some "local"; timeout := None; livenessEndpoint := None;
     readinessEndpoint := None; containerEndpoint := None;
     ready := None; close := None; error := Some 3; closing := None |}.

(** No variable set, no file. *)
Definition bare_world : World :=
  {| process_env := ∅; files := ∅ |}.

(** [KUBERNETES_SERVICE_HOST=] (set, to the empty string), no file. *)
Definition empty_host_world : World :=
  {| process_env := {[ "KUBERNETES_SERVICE_HOST" := "" ]}; files := ∅ |}.

(** [KUBERNETES_SERVICE_HOST=10.96.0.1] in a docker cgroup. *)
Definition cluster_world : World :=
  {| process_env := {[ "KUBERNETES_SERVICE_HOST" := "10.96.0.1" ]};
     files := {[ "/proc/1/cgroup" := File "0::/docker/3f2a" ]} |}.

(** [K8S=true] in a docker cgroup. *)
Definition flag_world : World :=
  {| process_env := {[ "K8S" := "true" ]};
     files := {[ "/proc/1/cgroup" := File "0::/docker/3f2a" ]} |}.

(** [K8S=TRUE], no file. *)
Definition shouted_flag_world : World :=
  {| process_env := {[ "K8S" := "TRUE" ]}; files := ∅ |}.

(** No variable set; the marker file names Docker in mixed case. *)
Definition docker_world : World :=
  {| process_env := ∅;
     files := {[ "/proc/1/cgroup" := File "0::/system.slice/Docker-3f2a" ]} |}.

(** No variable set; the marker file exists and cannot be read. *)
Definition locked_world : World :=
  {| process_env := ∅;
     files := {[ "/proc/1/cgroup" := Unreadable EACCES ]} |}.

(** No variable set; the marker file names Docker in upper case. *)
Definition shouted_docker_world : World :=
  {| process_env := ∅;
     files := {[ "/proc/1/cgroup" := File "0::/SYSTEM.SLICE/DOCKER-3F2A" ]} |}.

(** No variable set; the marker file of a host with a bare cgroup root. *)
Definition short_marker_world : World :=
  {| process_env := ∅;
     files := {[ "/proc/1/cgroup" := File "0::/" ]} |}.


(** [{ runtime: 'kubernetes', livenessEndpoint: '/healthz',
       readinessEndpoint: '/readyz' }] *)
Definition custom_probes : FastifyGracelyOptions :=
  {| runtime := Some "kubernetes"; timeout := None;
     livenessEndpoint := Some "/healthz"; readinessEndpoint := Some "/readyz";
     containerEndpoint := None;
     ready := None; close := None; error := None; closing := None |}.

(** [{ runtime: 'local', livenessEndpoint: '/healthz',
       readinessEndpoint: '/readyz' }] *)
Definition custom_probes_local : FastifyGracelyOptions :=
  {| runtime := Some "local"; timeout := None;
     livenessEndpoint := Some "/healthz"; readinessEndpoint := Some "/readyz";
     containerEndpoint := None;
     ready := None; close := None; error := None; closing := None |}.

(* ------------------------------------------------------------------------- *)
(** ** Case-insensitive matching                                              *)
(* ------------------------------------------------------------------------- *)

Section CaseFolding.

Lemma lower_canonicalize (c : ascii) :
  lower_ascii (Regex.canonicalize c) = lower_ascii c.
Proof. destruct c as [[] [] [] [] [] [] [] []]; reflexivity. Qed.

Lemma canonicalize_lower (c : ascii) :
  Regex.canonicalize (lower_ascii c) = Regex.canonicalize c.
Proof. destruct c as [[] [] [] [] [] [] [] []]; reflexivity. Qed.

Lemma canonicalize_eq_iff (a b : ascii) :
  Regex.canonicalize a = Regex.canonicalize b <->
  lower_ascii a = lower_ascii b.
Proof.
  split; intros H.
  - rewrite <- (lower_canonicalize a), <- (lower_canonicalize b).
    now rewrite H.
  - rewrite <- (canonicalize_lower a), <- (canonicalize_lower b).
    now rewrite H.
Qed.

Lemma match_literal_prefix (pat s : string) :
  Regex.match_literal pat s = true <->
  exists mid suf, s = mid ++ suf /\ to_lower mid = to_lower pat.
Proof.
  revert s. induction pat as [|p pat IH]; intros s; simpl.
  - split; [intros _; exists "", s; auto | auto].
  - destruct s as [|c s].
    + split; [discriminate|].
      intros (mid & suf & Hs & Hm).
      destruct mid; simpl in *; discriminate.
    + rewrite andb_true_iff, Ascii.eqb_eq, canonicalize_eq_iff, IH.
      split.
      * intros (Hc & mid & suf & -> & Hm).
        exists (String c mid), suf. simpl. split; [reflexivity|].
        now rewrite Hm, Hc.
      * intros (mid & suf & Hs & Hm).
        destruct mid as [|m mid]; simpl in *; [discriminate|].
        injection Hs as -> ->. injection Hm as Hc Hm.
        split; [now symmetry|]. eauto.
Qed.

Lemma match_alternatives_prefix (alts : list string) (s : string) :
  Regex.match_alternatives alts s = true <->
  exists sig mid suf,
    In sig alts /\ s = mid ++ suf /\ to_lower mid = to_lower sig.
Proof.
  unfold Regex.match_alternatives. rewrite existsb_exists. split.
  - intros (sig & Hin & Hm). apply match_literal_prefix in Hm.
    destruct Hm as (mid & suf & ? & ?). eauto 6.
  - intros (sig & mid & suf & Hin & Hs & Hm). exists sig. split; [easy|].
    apply match_literal_prefix. eauto.
Qed.

(** The regular-expression test decides case-insensitive containment of
    one of the alternatives. *)
Lemma test_contains (alts : list string) (s : string) :
  Regex.test alts s = true <->
  exists sig, In sig alts /\ contains_ignoring_case sig s.
Proof.
  induction s as [|c s IH]; simpl; rewrite orb_true_iff.
  - rewrite match_alternatives_prefix. split.
    + intros [(sig & mid & suf & Hin & Hs & Hm)|]; [|discriminate].
      exists sig. split; [easy|]. exists "", mid, suf. auto.
    + intros (sig & Hin & pre & mid & suf & Hs & Hm). left.
      destruct pre; simpl in Hs; [|discriminate].
      exists sig, mid, suf. auto.
  - rewrite match_alternatives_prefix, IH. split.
    + intros [(sig & mid & suf & Hin & Hs & Hm)|(sig & Hin & pre & mid & suf & Hs & Hm)].
      * exists sig. split; [easy|]. exists "", mid, suf. auto.
      * exists sig. split; [easy|]. exists (String c pre), mid, suf.
        simpl. now rewrite Hs.
    + intros (sig & Hin & pre & mid & suf & Hs & Hm).
      destruct pre as [|p pre]; simpl in Hs.
      * left. exists sig, mid, suf. auto.
      * right. injection Hs as -> ->. exists sig. split; [easy|].
        exists pre, mid, suf. auto.
Qed.

End CaseFolding.

(* ------------------------------------------------------------------------- *)
(** ** Runtime detection: what it returns and what it touches                 *)
(* ------------------------------------------------------------------------- *)

Section Detection.

Lemma log_log (a b : list Event) (r : Realm) :
  log b (log a r) = log (a ++ b)%list r.
Proof. unfold log; simpl. now rewrite <- app_assoc. Qed.

Lemma fs_reads_app (a b : list Event) :
  fs_reads (a ++ b) = (fs_reads a ++ fs_reads b)%list.
Proof. apply omap_app. Qed.

Lemma env_reads_app (a b : list Event) :
  env_reads (a ++ b) = (env_reads a ++ env_reads b)%list.
Proof. apply omap_app. Qed.

(** Detection run to its end, case by case. *)
Lemma detect_run (ep : string) (r : Realm) :
  detectGracelyRuntime ep r =
    if truthy_env (service_host r)
    then (Return "kubernetes", log [EnvGet "KUBERNETES_SERVICE_HOST"] r)
    else if env_is (k8s_flag r) "true"
    then (Return "kubernetes",
          log [EnvGet "KUBERNETES_SERVICE_HOST"; EnvGet "K8S"] r)
    else if truthy_string ep
    then (Return (marker_verdict r ep),
          log [EnvGet "KUBERNETES_SERVICE_HOST"; EnvGet "K8S"; FsRead ep] r)
    else (Return "local",
          log [EnvGet "KUBERNETES_SERVICE_HOST"; EnvGet "K8S"] r).
Proof.
  unfold detectGracelyRuntime, env_get, readFileSync, try_catch, bind,
    emit, ret, marker_verdict, service_host, k8s_flag.
  change (world (log ?es ?x)) with (world x).
  destruct (truthy_env _); [reflexivity|].
  rewrite !log_log.
  change (world (log ?es ?x)) with (world x).
  destruct (env_is _ _); [reflexivity|].
  destruct (truthy_string ep); [|reflexivity].
  rewrite !log_log.
  change (world (log ?es ?x)) with (world x).
  destruct (files (world r) !! ep) as [[content|e]|]; try reflexivity.
  destruct (Regex.test _ _); reflexivity.
Qed.

End Detection.

(* ------------------------------------------------------------------------- *)
(** ** The plugin run in a new process                                        *)
(* ------------------------------------------------------------------------- *)

Section Registration.

Lemma resolve_run (opts : FastifyGracelyOptions) (r : Realm) :
  exists env es, resolve opts r = (Return env, log es r).
Proof.
  unfold resolve. destruct (or_default "auto" (runtime opts) =? "auto").
  - rewrite detect_run.
    repeat match goal with |- context [if ?b then _ else _] => destruct b end;
      eauto.
  - exists (or_default "auto" (runtime opts)), [].
    unfold ret, log. rewrite app_nil_r. now destruct r.
Qed.

Lemma plugin_run (opts : FastifyGracelyOptions) (w : World)
  (env : string) (es : list Event) :
  resolve opts (boot w) = (Return env, log es (boot w)) ->
  plugin opts (boot w) = (Return tt, wired opts env (es ++ [Done]) w).
Proof.
  intros H. unfold plugin.
  change (if or_default "auto" (runtime opts) =? "auto"
          then detectGracelyRuntime
                 (or_default "/proc/1/cgroup" (containerEndpoint opts))
          else ret (or_default "auto" (runtime opts)))
    with (resolve opts).
  unfold bind at 1. rewrite H. reflexivity.
Qed.

End Registration.

(* ------------------------------------------------------------------------- *)
(** ** What registration establishes and every later action keeps             *)
(* ------------------------------------------------------------------------- *)

Section Wiring.

Variable opts : FastifyGracelyOptions.
Variable env : string.

Lemma log_nil (r : Realm) : log [] r = r.
Proof. destruct r. unfold log; simpl. now rewrite app_nil_r. Qed.

Lemma quiet_nil : quiet [].
Proof. split; reflexivity. Qed.

Lemma quiet_app (a b : list Event) : quiet a -> quiet b -> quiet (a ++ b).
Proof.
  intros [Ha1 Ha2] [Hb1 Hb2]. split.
  - now rewrite env_reads_app, Ha1, Hb1.
  - now rewrite fs_reads_app, Ha2, Hb2.
Qed.

Lemma quiet_callback (f : option UserCallback) (args : list Value) :
  quiet (callback_events f args).
Proof. destruct f; split; reflexivity. Qed.

Lemma quiet_listener (l : Listener) (payload : Value) :
  quiet (listener_events l payload).
Proof.
  destruct l; simpl; try apply quiet_callback;
    (apply quiet_app; [apply quiet_callback | split; reflexivity]).
Qed.

Lemma quiet_fired (ls : list (LifecycleEvent * Listener))
  (ev : LifecycleEvent) (payload : Value) :
  quiet (fired_events ls ev payload).
Proof.
  induction ls as [|[ev' l] ls IH]; simpl; [apply quiet_nil|].
  apply quiet_app; [|exact IH].
  destruct (same_event ev' ev); [apply quiet_listener | apply quiet_nil].
Qed.

Lemma call_if_function_log (f : option UserCallback) (args : list Value)
  (r : Realm) :
  call_if_function f args r = (Return tt, log (callback_events f args) r).
Proof. destruct f; simpl; [reflexivity|]. unfold ret. now rewrite log_nil. Qed.

Lemma run_listener_log (l : Listener) (payload : Value) (r : Realm) :
  run_listener l payload r = (Return tt, log (listener_events l payload) r).
Proof.
  destruct l; simpl; unfold bind, log_info, emit;
    rewrite call_if_function_log; now rewrite ?log_log.
Qed.

Lemma run_listeners_log (ls : list (LifecycleEvent * Listener))
  (ev : LifecycleEvent) (payload : Value) (r : Realm) :
  run_listeners ls ev payload r
  = (Return tt, log (fired_events ls ev payload) r).
Proof.
  revert r. induction ls as [|[ev' l] ls IH]; intros r; simpl.
  - unfold ret. now rewrite log_nil.
  - unfold bind. destruct (same_event ev' ev).
    + now rewrite run_listener_log, IH, log_log.
    + unfold ret. now rewrite IH.
Qed.

Lemma wired_up_log (es : list Event) (r : Realm) :
  wired_up opts env r -> wired_up opts env (log es r).
Proof. intros [? ? ? ? ? ?]. now constructor. Qed.

Lemma wired_up_wired (es : list Event) (w : World) :
  wired_up opts env (wired opts env es w).
Proof.
  constructor; try reflexivity. now exists STARTING.
Qed.

Lemma fired_ready (p : Value) :
  fired_events (plugin_listeners opts) EvReady p
  = listener_events (OnReady opts) p.
Proof. simpl. now rewrite !app_nil_r. Qed.

Lemma fired_shutting_down (p : Value) :
  fired_events (plugin_listeners opts) EvShuttingDown p
  = listener_events (OnShuttingDown opts) p.
Proof. simpl. now rewrite !app_nil_r. Qed.

Lemma fired_shutdown (p : Value) :
  fired_events (plugin_listeners opts) EvShutdown p
  = callback_events (error opts) [p].
Proof. simpl. now rewrite !app_nil_r. Qed.

Lemma fire_run (ev : LifecycleEvent) (p : Value) (r : Realm) (g : Graceful) :
  graceful r = Some g ->
  fire ev p r = (Return tt, log (fired_events (g_listeners g) ev p) r).
Proof. intros Hg. unfold fire. rewrite Hg. apply run_listeners_log. Qed.

(** A lifecycle transition of the library in a wired realm: the state is
    replaced and the listeners of the event run. *)
Lemma transition_wired (s : LifecycleState) (ev : LifecycleEvent)
  (p : Value) (r : Realm) :
  wired_up opts env r ->
  exists r',
    bind (set_state s) (fun _ => fire ev p) r = (Return tt, r')
    /\ wired_up opts env r'
    /\ lifecycle r' = s
    /\ trace r' = (trace r ++ fired_events (plugin_listeners opts) ev p)%list.
Proof.
  intros [Hh Hi Hr Hk Hp [st Hg]].
  unfold bind, set_state. rewrite Hg.
  erewrite fire_run by reflexivity.
  eexists. split; [reflexivity|]. split; [|split; reflexivity].
  apply wired_up_log. constructor; try assumption. now exists s.
Qed.

Lemma get_state_wired (r : Realm) :
  wired_up opts env r -> get_state r = (Return (lifecycle r), r).
Proof.
  intros [_ _ _ _ _ [st Hg]]. unfold get_state, lifecycle. now rewrite Hg.
Qed.

Lemma setReady_wired (r : Realm) :
  wired_up opts env r ->
  exists r',
    setReady r = (Return tt, r')
    /\ wired_up opts env r'
    /\ lifecycle r' = match lifecycle r with STARTING => READY | s => s end
    /\ trace r' =
         (trace r ++ match lifecycle r with
                     | STARTING => listener_events (OnReady opts) VUndefined
                     | _ => []
                     end)%list.
Proof.
  intros H. unfold setReady, bind at 1. rewrite (get_state_wired r H).
  destruct (lifecycle r) eqn:E;
    try (exists r; unfold ret; rewrite app_nil_r; now auto).
  destruct (transition_wired READY EvReady VUndefined r H)
    as (r' & -> & ? & ? & Ht).
  rewrite fired_ready in Ht. eauto.
Qed.

Lemma beginShutdown_wired (r : Realm) :
  wired_up opts env r ->
  exists r',
    beginShutdown r = (Return tt, r')
    /\ wired_up opts env r'
    /\ lifecycle r' = match lifecycle r with
                      | STARTING | READY => SHUTTING_DOWN
                      | s => s
                      end
    /\ trace r' =
         (trace r ++ match lifecycle r with
                     | STARTING | READY =>
                         listener_events (OnShuttingDown opts) VUndefined
                     | _ => []
                     end)%list.
Proof.
  intros H. unfold beginShutdown, bind at 1. rewrite (get_state_wired r H).
  destruct (lifecycle r) eqn:E;
    try (exists r; unfold ret; rewrite app_nil_r; now auto);
    destruct (transition_wired SHUTTING_DOWN EvShuttingDown VUndefined r H)
      as (r' & -> & ? & ? & Ht);
    rewrite fired_shutting_down in Ht; eauto.
Qed.

Lemma markShutdown_wired (err : Value) (r : Realm) :
  wired_up opts env r ->
  exists r',
    markShutdown err r = (Return tt, r')
    /\ wired_up opts env r'
    /\ lifecycle r' = match lifecycle r with
                      | SHUTTING_DOWN => SHUTDOWN
                      | s => s
                      end
    /\ trace r' =
         (trace r ++ match lifecycle r with
                     | SHUTTING_DOWN => callback_events (error opts) [err]
                     | _ => []
                     end)%list.
Proof.
  intros H. unfold markShutdown, bind at 1. rewrite (get_state_wired r H).
  destruct (lifecycle r) eqn:E;
    try (exists r; unfold ret; rewrite app_nil_r; now auto).
  destruct (transition_wired SHUTDOWN EvShutdown err r H)
    as (r' & -> & ? & ? & Ht).
  rewrite fired_shutdown in Ht. eauto.
Qed.

(** Fastify's [onReady] phase runs the one hook of the plugin. *)
Lemma fastify_onReady_wired (r : Realm) :
  wired_up opts env r ->
  fastify_onReady r = setReady r.
Proof.
  intros H. unfold fastify_onReady. rewrite (wu_hooks _ _ _ H). simpl.
  unfold bind. destruct (setReady_wired r H) as (r' & -> & _). reflexivity.
Qed.

Lemma gracely_ready_prop :
  props (gracely_object env) !! "ready" = Some (Fn GracelyReady).
Proof. reflexivity. Qed.

Lemma gracely_runtime_prop :
  props (gracely_object env) !! "runtime" = Some (Data (VString env)).
Proof. reflexivity. Qed.

(** The readiness query of the status object reads the lifecycle state. *)
Lemma query_ready_wired (r : Realm) :
  wired_up opts env r ->
  call_method (instance_get "gracely" r) "ready" r
  = (Return (VBool (is_READY (lifecycle r))), r).
Proof.
  intros [Hh Hi Hr Hk Hp [st Hg]].
  unfold instance_get, read_decorator, call_method. rewrite Hi.
  unfold run_getter. rewrite Hh, gracely_ready_prop.
  unfold run_method, bind, isReady, lifecycle. now rewrite Hg.
Qed.

Lemma query_runtime_wired (r : Realm) :
  wired_up opts env r -> query_runtime r = Some (VString env).
Proof.
  intros [Hh Hi Hr Hk Hp [st Hg]].
  unfold query_runtime, instance_get, read_decorator, get_data. rewrite Hi.
  unfold run_getter. now rewrite Hh, gracely_runtime_prop.
Qed.

Lemma wired_up_with_heap (h : list JsObject) (r : Realm) :
  wired_up opts env r ->
  h !! 0 = Some (gracely_object env) ->
  wired_up opts env (with_heap h r).
Proof. intros [? ? ? ? ? ?] Hh. now constructor. Qed.

(** One action of the surrounding program keeps the wiring and adds only
    quiet events. *)
Lemma perform_wired (a : Action) (r : Realm) :
  wired_up opts env r ->
  exists es,
    quiet es
    /\ trace (snd (perform a r)) = (trace r ++ es)%list
    /\ wired_up opts env (snd (perform a r)).
Proof.
  intros H. pose proof H as [Hh Hi Hr Hk Hp [st Hg]].
  assert (Hsame : exists es, quiet es /\ trace r = (trace r ++ es)%list
                             /\ wired_up opts env r).
  { exists []. rewrite app_nil_r. auto using quiet_nil. }
  destruct a as [l key v|l key|o|name g|name g| | | |err]; simpl.
  - unfold assign. destruct (heap r !! l) as [o|] eqn:El; [|exact Hsame].
    destruct (frozen o) eqn:Ef; [exact Hsame|]. simpl.
    exists []. rewrite app_nil_r. split; [apply quiet_nil|]. split; [easy|].
    apply wired_up_with_heap; [exact H|].
    destruct (decide (l = 0)) as [->|Hne].
    + rewrite Hh in El. injection El as <-. discriminate.
    + now rewrite list_lookup_insert_ne.
  - unfold delete_prop. destruct (heap r !! l) as [o|] eqn:El; [|exact Hsame].
    destruct (props o !! key); [|exact Hsame].
    destruct (frozen o) eqn:Ef; [exact Hsame|]. simpl.
    exists []. rewrite app_nil_r. split; [apply quiet_nil|]. split; [easy|].
    apply wired_up_with_heap; [exact H|].
    destruct (decide (l = 0)) as [->|Hne].
    + rewrite Hh in El. injection El as <-. discriminate.
    + now rewrite list_lookup_insert_ne.
  - unfold bind, alloc, ret. simpl.
    exists []. rewrite app_nil_r. split; [apply quiet_nil|]. split; [easy|].
    apply wired_up_with_heap; [exact H|].
    rewrite lookup_app_l; [exact Hh|]. now apply lookup_lt_Some in Hh.
  - unfold decorate. simpl.
    destruct (instance_decorators (fastify r) !! name) eqn:En; [exact Hsame|].
    simpl. exists []. rewrite app_nil_r. split; [apply quiet_nil|].
    split; [easy|]. constructor; simpl; try assumption; [|now exists st].
    rewrite lookup_insert_ne; [exact Hi|]. intros ->. congruence.
  - unfold decorateRequest. simpl.
    destruct (request_decorators (fastify r) !! name) eqn:En; [exact Hsame|].
    simpl. exists []. rewrite app_nil_r. split; [apply quiet_nil|].
    split; [easy|]. constructor; simpl; try assumption; [|now exists st].
    rewrite lookup_insert_ne; [exact Hr|]. intros ->. congruence.
  - unfold bind. rewrite (query_ready_wired r H). exact Hsame.
  - rewrite (fastify_onReady_wired r H).
    destruct (setReady_wired r H) as (r' & -> & Hw & _ & Ht). simpl.
    eexists. split; [|split; [exact Ht|exact Hw]].
    destruct (lifecycle r); auto using quiet_nil, quiet_listener.
  - destruct (beginShutdown_wired r H) as (r' & -> & Hw & _ & Ht). simpl.
    eexists. split; [|split; [exact Ht|exact Hw]].
    destruct (lifecycle r); auto using quiet_nil, quiet_listener.
  - destruct (markShutdown_wired err r H) as (r' & -> & Hw & _ & Ht). simpl.
    eexists. split; [|split; [exact Ht|exact Hw]].
    destruct (lifecycle r); auto using quiet_nil, quiet_callback.
Qed.

Lemma perform_all_wired (acts : list Action) (r : Realm) :
  wired_up opts env r ->
  exists es,
    quiet es
    /\ trace (perform_all acts r) = (trace r ++ es)%list
    /\ wired_up opts env (perform_all acts r).
Proof.
  revert r. induction acts as [|a acts IH]; intros r H; simpl.
  - exists []. rewrite app_nil_r. auto using quiet_nil.
  - destruct (perform_wired a r H) as (es1 & Hq1 & Ht1 & Hw1).
    destruct (IH _ Hw1) as (es2 & Hq2 & Ht2 & Hw2).
    exists (es1 ++ es2)%list. split; [now apply quiet_app|].
    split; [|exact Hw2]. now rewrite Ht2, Ht1, <- app_assoc.
Qed.

End Wiring.

(* ------------------------------------------------------------------------- *)
(** ** Detection                                                              *)
(* ------------------------------------------------------------------------- *)

Section DetectionProperties.

Lemma readFileSync_run (path : string) (r : Realm) :
  readFileSync path r =
    (match files (world r) !! path with
     | Some (File content) => Return content
     | Some (Unreadable e) => Throw (FsException e)
     | None => Throw (FsException ENOENT)
     end, log [FsRead path] r).
Proof.
  unfold readFileSync, bind, emit.
  change (world (log ?es ?x)) with (world x).
  now destruct (files (world r) !! path) as [[c|e]|].
Qed.

Lemma truthy_env_some (v : string) : v <> "" -> truthy_env (Some v) = true.
Proof.
  intros Hv. unfold truthy_env, truthy_string.
  now apply negb_true_iff, String.eqb_neq.
Qed.

Lemma fs_reads_log_env (names : list string) (r : Realm) :
  fs_reads (trace (log (map EnvGet names) r)) = fs_reads (trace r).
Proof.
  unfold log; simpl. rewrite fs_reads_app.
  replace (fs_reads (map EnvGet names)) with (@nil string).
  - apply app_nil_r.
  - induction names; simpl; auto.
Qed.

Lemma marker_verdict_not_kubernetes (r : Realm) (path : string) :
  marker_verdict r path <> "kubernetes".
Proof.
  unfold marker_verdict.
  destruct (files (world r) !! path) as [[c|e]|]; try discriminate.
  destruct (Regex.test _ _); discriminate.
Qed.

(** Detection always returns; no branch of it lets an exception out. *)
Lemma detect_never_throws (ep : string) (r : Realm) :
  exists v r', detectGracelyRuntime ep r = (Return v, r').
Proof.
  rewrite detect_run.
  repeat match goal with |- context [if ?b then _ else _] => destruct b end;
    eauto.
Qed.

End DetectionProperties.

(** C1, as written: a service-host variable that is present decides for
    ['kubernetes'].  It does not when it is present and empty: the empty
    string is falsy, and detection goes on to the marker file. *)
Lemma present_but_empty_service_host_is_local :
  is_Some (service_host (boot empty_host_world))
  /\ or_default "auto" (runtime default_options) = "auto"
  /\ fst (resolve default_options (boot empty_host_world)) = Return "local"
  /\ fs_reads (trace (snd (resolve default_options (boot empty_host_world))))
     = ["/proc/1/cgroup"].
Proof.
  split; [eexists; reflexivity|]. repeat split; reflexivity.
Qed.

(** C1, amended: with runtime ['auto'] (given or by default), when
    [KUBERNETES_SERVICE_HOST] is set to a non-empty value or [K8S] is the
    string ['true'], the environment is ['kubernetes'] and no file is read,
    whatever [containerEndpoint] and the files are. *)
Theorem kubernetes_variables_decide (opts : FastifyGracelyOptions)
  (r : Realm) :
  or_default "auto" (runtime opts) = "auto" ->
  (exists v, service_host r = Some v /\ v <> "")
  \/ k8s_flag r = Some "true" ->
  exists r',
    resolve opts r = (Return "kubernetes", r')
    /\ fs_reads (trace r') = fs_reads (trace r).
Proof.
  intros Hauto Hvar. unfold resolve. rewrite Hauto. simpl.
  rewrite detect_run.
  destruct (truthy_env (service_host r)) eqn:Hhost.
  - eexists. split; [reflexivity|].
    apply (fs_reads_log_env ["KUBERNETES_SERVICE_HOST"]).
  - destruct Hvar as [(v & Hv & Hne)|Hflag].
    + rewrite Hv, (truthy_env_some v Hne) in Hhost. discriminate.
    + rewrite Hflag. simpl. eexists. split; [reflexivity|].
      apply (fs_reads_log_env ["KUBERNETES_SERVICE_HOST"; "K8S"]).
Qed.

Lemma kubernetes_variables_decide_witness :
  exists r',
    resolve default_options (boot flag_world) = (Return "kubernetes", r')
    /\ fs_reads (trace r') = fs_reads (trace (boot flag_world)).
Proof.
  apply (kubernetes_variables_decide default_options (boot flag_world)).
  - reflexivity.
  - right. reflexivity.
Defined.

(** C2: with neither kubernetes variable set, a marker file that is
    configured, can be read and contains one of the signatures in any mix of
    upper and lower case makes detection return ['container']. *)
Theorem signature_in_marker_is_container (ep content sig : string)
  (r : Realm) :
  service_host r = None ->
  k8s_flag r = None ->
  ep <> "" ->
  fst (readFileSync ep r) = Return content ->
  In sig container_signatures ->
  contains_ignoring_case sig content ->
  fst (detectGracelyRuntime ep r) = Return "container".
Proof.
  intros Hhost Hflag Hep Hread Hin Hsub.
  rewrite detect_run, Hhost, Hflag. simpl.
  unfold truthy_string. apply String.eqb_neq in Hep. rewrite Hep. simpl.
  rewrite readFileSync_run in Hread. simpl in Hread.
  unfold marker_verdict.
  destruct (files (world r) !! ep) as [[c|e]|]; try discriminate.
  injection Hread as ->.
  replace (Regex.test container_signatures content) with true;
    [reflexivity|].
  symmetry. apply test_contains. eauto.
Qed.

Lemma signature_in_marker_is_container_witness :
  fst (detectGracelyRuntime "/proc/1/cgroup" (boot docker_world))
  = Return "container".
Proof.
  apply (signature_in_marker_is_container "/proc/1/cgroup"
           "0::/system.slice/Docker-3f2a" "docker" (boot docker_world)).
  - reflexivity.
  - reflexivity.
  - discriminate.
  - reflexivity.
  - simpl. auto.
  - exists "0::/system.slice/", "Docker", "-3f2a". split; reflexivity.
Defined.

(** C3: with runtime ['auto'], [containerEndpoint] the empty string and
    neither kubernetes variable set, the environment is ['local'] and the
    file system is not read. *)
Theorem empty_endpoint_is_local (opts : FastifyGracelyOptions) (r : Realm) :
  or_default "auto" (runtime opts) = "auto" ->
  containerEndpoint opts = Some "" ->
  service_host r = None ->
  k8s_flag r = None ->
  exists r',
    resolve opts r = (Return "local", r')
    /\ fs_reads (trace r') = fs_reads (trace r).
Proof.
  intros Hauto Hep Hhost Hflag. unfold resolve. rewrite Hauto, Hep. simpl.
  rewrite detect_run, Hhost, Hflag. simpl.
  eexists. split; [reflexivity|].
  apply (fs_reads_log_env ["KUBERNETES_SERVICE_HOST"; "K8S"]).
Qed.

Lemma empty_endpoint_is_local_witness :
  exists r',
    resolve no_marker_options (boot docker_world) = (Return "local", r')
    /\ fs_reads (trace r') = fs_reads (trace (boot docker_world)).
Proof.
  apply (empty_endpoint_is_local no_marker_options (boot docker_world));
    reflexivity.
Defined.

(** C4: with neither kubernetes variable set, when reading the marker file
    throws, whatever the exception, detection returns ['local']; and
    detection returns a value in every realm, it never throws. *)
Theorem unreadable_marker_is_local (ep : string) (r : Realm) (e : Exn) :
  service_host r = None ->
  k8s_flag r = None ->
  fst (readFileSync ep r) = Throw e ->
  (exists r', detectGracelyRuntime ep r = (Return "local", r'))
  /\ (forall ep' r0, exists v r', detectGracelyRuntime ep' r0 = (Return v, r')).
Proof.
  intros Hhost Hflag Hread. split; [|apply detect_never_throws].
  rewrite detect_run, Hhost, Hflag. simpl.
  destruct (truthy_string ep); [|eauto].
  rewrite readFileSync_run in Hread. simpl in Hread.
  unfold marker_verdict.
  destruct (files (world r) !! ep) as [[c|e']|]; try discriminate; eauto.
Qed.

Lemma unreadable_marker_is_local_witness :
  exists r',
    detectGracelyRuntime "/proc/1/cgroup" (boot locked_world)
    = (Return "local", r').
Proof.
  apply (unreadable_marker_is_local "/proc/1/cgroup" (boot locked_world)
           (FsException EACCES)); reflexivity.
Defined.

(** C10: [KUBERNETES_SERVICE_HOST] decides for ['kubernetes'] with any
    non-empty value; without it, detection returns ['kubernetes'] exactly
    when [K8S] is the string ['true'], so not for ['TRUE'], ['True'] or
    ['1']. *)
Theorem kubernetes_triggers (ep : string) (r : Realm) :
  (forall v, service_host r = Some v -> v <> "" ->
             fst (detectGracelyRuntime ep r) = Return "kubernetes")
  /\ (truthy_env (service_host r) = false ->
      (fst (detectGracelyRuntime ep r) = Return "kubernetes"
       <-> k8s_flag r = Some "true"))
  /\ (truthy_env (service_host r) = false ->
      forall v, In v ["TRUE"; "True"; "1"] -> k8s_flag r = Some v ->
                fst (detectGracelyRuntime ep r) <> Return "kubernetes").
Proof.
  assert (Hiff : truthy_env (service_host r) = false ->
                 (fst (detectGracelyRuntime ep r) = Return "kubernetes"
                  <-> k8s_flag r = Some "true")).
  { intros Hhost. rewrite detect_run, Hhost.
    destruct (k8s_flag r) as [v|] eqn:Hflag; simpl.
    - destruct (v =? "true") eqn:Hv.
      + apply String.eqb_eq in Hv. subst v. now split.
      + apply String.eqb_neq in Hv. split.
        * destruct (truthy_string ep); simpl; intros H; [|discriminate].
          injection H as H. now apply marker_verdict_not_kubernetes in H.
        * intros H. injection H as ->. now elim Hv.
    - split; [|discriminate].
      destruct (truthy_string ep); simpl; intros H; [|discriminate].
      injection H as H. now apply marker_verdict_not_kubernetes in H. }
  split; [|split; [exact Hiff|]].
  - intros v Hv Hne. rewrite detect_run, Hv, (truthy_env_some v Hne).
    reflexivity.
  - intros Hhost v Hin Hflag Hk. apply (Hiff Hhost) in Hk.
    rewrite Hflag in Hk. injection Hk as ->.
    simpl in Hin. intuition discriminate.
Qed.

Lemma kubernetes_triggers_witness :
  fst (detectGracelyRuntime "/proc/1/cgroup" (boot cluster_world))
  = Return "kubernetes"
  /\ fst (detectGracelyRuntime "/proc/1/cgroup" (boot shouted_flag_world))
     <> Return "kubernetes".
Proof.
  split.
  - apply (proj1 (kubernetes_triggers "/proc/1/cgroup" (boot cluster_world))
             "10.96.0.1"); [reflexivity | discriminate].
  - apply (proj2 (proj2 (kubernetes_triggers "/proc/1/cgroup"
                           (boot shouted_flag_world)))
             eq_refl "TRUE"); [simpl; auto | reflexivity].
Defined.

(* ------------------------------------------------------------------------- *)
(** ** The registered plugin                                                  *)
(* ------------------------------------------------------------------------- *)

Section Registered.

(** Registration in a new process never fails; it leaves the wired realm
    of the environment it resolved. *)
Lemma registered_run (opts : FastifyGracelyOptions) (w : World) :
  exists env es,
    resolve opts (boot w) = (Return env, log es (boot w))
    /\ plugin opts (boot w) = (Return tt, wired opts env (es ++ [Done]) w).
Proof.
  destruct (resolve_run opts (boot w)) as (env & es & H).
  exists env, es. split; [exact H|]. now apply plugin_run.
Qed.

Lemma registered_wired (opts : FastifyGracelyOptions) (w : World) :
  exists env es,
    resolve opts (boot w) = (Return env, log es (boot w))
    /\ registered opts w = wired opts env (es ++ [Done]) w
    /\ wired_up opts env (registered opts w).
Proof.
  destruct (registered_run opts w) as (env & es & H & Hp).
  exists env, es. unfold registered. rewrite Hp. simpl.
  auto using wired_up_wired.
Qed.

(** An explicit runtime is taken as it is. *)
Lemma resolve_explicit (opts : FastifyGracelyOptions) (s : string)
  (r : Realm) :
  runtime opts = Some s -> s <> "auto" ->
  resolve opts r = (Return s, log [] r).
Proof.
  intros Hs Hne. unfold resolve. rewrite Hs. simpl.
  apply String.eqb_neq in Hne. rewrite Hne. unfold ret. now rewrite log_nil.
Qed.

End Registered.

(** C5, as written: on a clean shutdown the error callback is not invoked.
    It is: the listener of the plugin calls [opts.error] with whatever the
    terminal event carries, here [null]. *)
Lemma clean_shutdown_invokes_error_callback :
  let r := perform_all [FastifyReady; BeginShutdown]
             (registered error_only bare_world) in
  is_none VNull = true
  /\ lifecycle r = SHUTTING_DOWN
  /\ invoked 3 (trace r) = false
  /\ lifecycle (snd (markShutdown VNull r)) = SHUTDOWN
  /\ invoked 3 (trace (snd (markShutdown VNull r))) = true
  /\ trace (snd (run_listener (OnShutdown error_only) VNull (boot bare_world)))
     = [Invoke 3 [VNull]].
Proof. repeat split; reflexivity. Qed.

(** C5, amended: when the terminal SHUTDOWN event fires, the error callback,
    where the user supplied one, is invoked once with the value the event
    carries, an error or none alike; where none was supplied nothing is
    invoked. *)
Theorem shutdown_hands_its_value_to_the_callback
  (opts : FastifyGracelyOptions) (w : World) (acts : list Action)
  (err : Value) :
  lifecycle (perform_all acts (registered opts w)) = SHUTTING_DOWN ->
  exists r',
    markShutdown err (perform_all acts (registered opts w)) = (Return tt, r')
    /\ lifecycle r' = SHUTDOWN
    /\ trace r' =
         (trace (perform_all acts (registered opts w))
          ++ match error opts with
             | Some f => [Invoke f [err]]
             | None => []
             end)%list.
Proof.
  intros Hst.
  destruct (registered_wired opts w) as (env & es & _ & _ & Hw).
  destruct (perform_all_wired opts env acts _ Hw) as (_ & _ & _ & Hw').
  destruct (markShutdown_wired opts env err _ Hw') as (r' & Hr & _ & Hl & Ht).
  rewrite Hst in Hl, Ht. exists r'. auto.
Qed.

Lemma shutdown_hands_its_value_to_the_callback_witness :
  exists r',
    markShutdown (VError "timeout")
      (perform_all [BeginShutdown] (registered error_only bare_world))
    = (Return tt, r')
    /\ lifecycle r' = SHUTDOWN
    /\ trace r' =
         (trace (perform_all [BeginShutdown] (registered error_only bare_world))
          ++ [Invoke 3 [VError "timeout"]])%list.
Proof.
  apply (shutdown_hands_its_value_to_the_callback error_only bare_world
           [BeginShutdown] (VError "timeout")).
  reflexivity.
Defined.

(** C6, at [{ runtime: 'none' }]: no probe route exists and neither the
    environment nor the file system is touched, at registration or by
    anything after it; yet the hook and the listeners are registered as for
    every other runtime, and the readiness query follows the lifecycle:
    [false] before Fastify's [onReady], [true] after it, [false] again once
    shutdown begins. *)
Theorem runtime_none_readiness_follows_lifecycle (w : World)
  (acts : list Action) :
  let r := registered runtime_none w in
  probe_routes (fastify r) = []
  /\ query_runtime r = Some (VString "none")
  /\ env_reads (trace (perform_all acts r)) = []
  /\ fs_reads (trace (perform_all acts r)) = []
  /\ hooks (fastify r) = [("onReady", SetReadyHook)]
  /\ option_map g_listeners (graceful r) = Some (plugin_listeners runtime_none)
  /\ query_ready r = Return (VBool false)
  /\ query_ready (perform_all [FastifyReady] r) = Return (VBool true)
  /\ query_ready (perform_all [FastifyReady; BeginShutdown] r)
     = Return (VBool false).
Proof.
  intros r.
  assert (Hr : r = wired runtime_none "none" [Done] w).
  { unfold r, registered.
    rewrite (plugin_run runtime_none w "none" []); [reflexivity|].
    now apply resolve_explicit. }
  assert (Hw : wired_up runtime_none "none" r).
  { rewrite Hr. apply wired_up_wired. }
  destruct (perform_all_wired _ _ acts r Hw) as (es & [Hq1 Hq2] & Ht & _).
  rewrite Ht, env_reads_app, fs_reads_app, Hq1, Hq2.
  rewrite Hr. repeat split; reflexivity.
Qed.

(** C7: the health check of the library is switched on, and probe routes
    exist, exactly when the resolved environment is ['kubernetes'], then at
    the configured paths, ['/live'] and ['/ready'] by default; the resolved
    environment is the runtime of the options where that is given and is
    not ['auto'], and what detection returns otherwise; whatever the
    environment and whatever happens later, the routes stay as registered
    and [gracely.ready()] answers with whether the lifecycle is in
    [READY]. *)
Theorem probes_exactly_for_kubernetes (opts : FastifyGracelyOptions)
  (w : World) :
  exists env es,
    resolve opts (boot w) = (Return env, log es (boot w))
    /\ match runtime opts with
       | Some s =>
           if s =? "auto"
           then fst (detectGracelyRuntime
                       match containerEndpoint opts with
                       | Some path => path
                       | None => "/proc/1/cgroup"
                       end (boot w)) = Return env
           else env = s
       | None =>
           fst (detectGracelyRuntime
                  match containerEndpoint opts with
                  | Some path => path
                  | None => "/proc/1/cgroup"
                  end (boot w)) = Return env
       end
    /\ query_runtime (registered opts w) = Some (VString env)
    /\ option_map (fun g => (g_healthCheck (g_options g),
                             g_kubernetes (g_options g)))
         (graceful (registered opts w))
       = Some (env =? "kubernetes", env =? "kubernetes")
    /\ probe_routes (fastify (registered opts w)) =
         (if env =? "kubernetes"
          then [match livenessEndpoint opts with
                | Some path => path
                | None => "/live"
                end;
                match readinessEndpoint opts with
                | Some path => path
                | None => "/ready"
                end]
          else [])
    /\ (probe_routes (fastify (registered opts w)) <> []
        <-> env = "kubernetes")
    /\ forall acts,
         probe_routes (fastify (perform_all acts (registered opts w)))
         = probe_routes (fastify (registered opts w))
         /\ query_ready (perform_all acts (registered opts w))
            = Return (VBool (is_READY
                               (lifecycle
                                  (perform_all acts (registered opts w))))).
Proof.
  destruct (registered_wired opts w) as (env & es & Hres & Hreg & Hw).
  exists env, es. split; [exact Hres|].
  split.
  { unfold resolve in Hres.
    destruct (runtime opts) as [s|]; simpl in Hres.
    - destruct (s =? "auto").
      + destruct (containerEndpoint opts); simpl in Hres; now rewrite Hres.
      + unfold ret in Hres. now injection Hres as <- _.
    - destruct (containerEndpoint opts); simpl in Hres; now rewrite Hres. }
  split; [now apply (query_runtime_wired opts env)|].
  split; [now rewrite Hreg|].
  pose proof (wu_routes _ _ _ Hw) as Hroutes.
  split.
  { rewrite Hroutes.
    now destruct (livenessEndpoint opts), (readinessEndpoint opts). }
  split.
  - rewrite Hroutes. destruct (env =? "kubernetes") eqn:E.
    + apply String.eqb_eq in E. split; [easy|discriminate].
    + apply String.eqb_neq in E. split; [easy|contradiction].
  - intros acts.
    destruct (perform_all_wired opts env acts _ Hw) as (_ & _ & _ & Hw').
    split.
    + now rewrite (wu_routes _ _ _ Hw'), Hroutes.
    + unfold query_ready. now rewrite (query_ready_wired opts env _ Hw').
Qed.

Lemma probes_exactly_for_kubernetes_witness :
  probe_routes (fastify (registered custom_probes flag_world))
  = ["/healthz"; "/readyz"]
  /\ probe_routes (fastify (registered default_options flag_world))
     = ["/live"; "/ready"]
  /\ probe_routes (fastify (registered custom_probes_local flag_world)) = [].
Proof.
  split; [|split].
  - destruct (probes_exactly_for_kubernetes custom_probes flag_world)
      as (env & es & _ & Henv & _ & _ & Hroutes & _).
    simpl in Henv. subst env. exact Hroutes.
  - destruct (probes_exactly_for_kubernetes default_options flag_world)
      as (env & es & _ & Henv & _ & _ & Hroutes & _).
    simpl in Henv. injection Henv as <-. exact Hroutes.
  - destruct (probes_exactly_for_kubernetes custom_probes_local flag_world)
      as (env & es & _ & Henv & _ & _ & Hroutes & _).
    simpl in Henv. subst env. exact Hroutes.
Defined.

(** C8, as written: an invalid configuration makes construction fail.  It
    does not: an unknown runtime and a negative timeout are accepted, the
    plugin calls [done()] and reports the unknown runtime. *)
Lemma invalid_configuration_is_accepted :
  recognized_runtime "bogus" = false
  /\ timeout bogus_options = Some (-1)%Z
  /\ plugin bogus_options (boot bare_world)
     = (Return tt, registered bogus_options bare_world)
  /\ trace (registered bogus_options bare_world) = [Done]
  /\ query_runtime (registered bogus_options bare_world)
     = Some (VString "bogus")
  /\ option_map (fun g => g_timeout (g_options g))
       (graceful (registered bogus_options bare_world)) = Some (-1)%Z.
Proof. repeat split; reflexivity. Qed.

(** C8, amended: the plugin checks nothing.  Construction returns normally
    and ends on [done()] for every configuration; a runtime other than
    ['auto'], recognized or not, becomes the reported runtime as it is, with
    probe routes only for ['kubernetes']; the timeout, or 10000 without one,
    goes to the library as it is. *)
Theorem plugin_checks_nothing (opts : FastifyGracelyOptions) (w : World) :
  fst (plugin opts (boot w)) = Return tt
  /\ last (trace (registered opts w)) = Some Done
  /\ option_map (fun g => g_timeout (g_options g))
       (graceful (registered opts w))
     = Some (or_default 10000%Z (timeout opts))
  /\ forall s,
       runtime opts = Some s -> s <> "auto" ->
       query_runtime (registered opts w) = Some (VString s)
       /\ (s <> "kubernetes" -> probe_routes (fastify (registered opts w)) = []).
Proof.
  destruct (registered_run opts w) as (env & es & Hres & Hp).
  unfold registered. rewrite Hp. simpl.
  split; [reflexivity|]. split; [apply last_snoc|]. split; [reflexivity|].
  intros s Hs Hne.
  rewrite (resolve_explicit opts s _ Hs Hne) in Hres.
  injection Hres as <- _.
  split; [reflexivity|].
  intros Hk. apply String.eqb_neq in Hk. now rewrite Hk.
Qed.

Lemma plugin_checks_nothing_witness :
  query_runtime (registered bogus_options bare_world) = Some (VString "bogus")
  /\ probe_routes (fastify (registered bogus_options bare_world)) = [].
Proof.
  destruct (proj2 (proj2 (proj2 (plugin_checks_nothing bogus_options
                                   bare_world)))
              "bogus" eq_refl) as [Hq Hp].
  - discriminate.
  - split; [exact Hq|]. apply Hp. discriminate.
Defined.

(** C9: [fastify.gracely] and [request.gracely] give one and the same
    location, at registration and after any later actions; the object there
    is frozen and stays the object of registration, so its [runtime] never
    changes; assigning to any of its properties throws. *)
Theorem gracely_is_shared_and_frozen (opts : FastifyGracelyOptions)
  (w : World) (acts : list Action) :
  exists l o,
    instance_get "gracely" (registered opts w) = VRef l
    /\ request_get "gracely" (registered opts w) = VRef l
    /\ instance_get "gracely" (perform_all acts (registered opts w)) = VRef l
    /\ request_get "gracely" (perform_all acts (registered opts w)) = VRef l
    /\ heap (registered opts w) !! l = Some o
    /\ heap (perform_all acts (registered opts w)) !! l = Some o
    /\ frozen o = true
    /\ query_runtime (perform_all acts (registered opts w))
       = query_runtime (registered opts w)
    /\ forall key v,
         exists e,
           assign l key v (perform_all acts (registered opts w))
           = (Throw e, perform_all acts (registered opts w)).
Proof.
  destruct (registered_wired opts w) as (env & es & _ & _ & Hw).
  destruct (perform_all_wired opts env acts _ Hw) as (_ & _ & _ & Hw').
  exists 0, (gracely_object env).
  unfold instance_get, request_get, read_decorator.
  rewrite (wu_instance _ _ _ Hw), (wu_request _ _ _ Hw),
    (wu_instance _ _ _ Hw'), (wu_request _ _ _ Hw').
  repeat split; try reflexivity.
  - exact (wu_heap _ _ _ Hw).
  - exact (wu_heap _ _ _ Hw').
  - now rewrite (query_runtime_wired opts env _ Hw),
      (query_runtime_wired opts env _ Hw').
  - intros key v. unfold assign. rewrite (wu_heap _ _ _ Hw'). simpl. eauto.
Qed.

(* ------------------------------------------------------------------------- *)
(** ** Further properties of detection                                        *)
(* ------------------------------------------------------------------------- *)

Section DetectionFootprint.

Lemma marker_verdict_range (r : Realm) (path : string) :
  marker_verdict r path = "container" \/ marker_verdict r path = "local".
Proof.
  unfold marker_verdict.
  destruct (files (world r) !! path) as [[c|e]|]; auto.
  destruct (Regex.test _ _); auto.
Qed.

Lemma detect_range (ep : string) (r : Realm) :
  exists v es,
    detectGracelyRuntime ep r = (Return v, log es r)
    /\ (v = "kubernetes" \/ v = "container" \/ v = "local").
Proof.
  rewrite detect_run.
  destruct (truthy_env _); [eauto 6|].
  destruct (env_is _ _); [eauto 6|].
  destruct (truthy_string ep); [|eauto 6].
  destruct (marker_verdict_range r ep) as [-> | ->]; eauto 6.
Qed.

Lemma match_literal_lower (pat s : string) :
  Regex.match_literal pat (to_lower s) = Regex.match_literal pat s.
Proof.
  revert s. induction pat as [|p pat IH]; intros [|c s]; simpl; auto.
  now rewrite canonicalize_lower, IH.
Qed.

Lemma match_alternatives_lower (alts : list string) (s : string) :
  Regex.match_alternatives alts (to_lower s)
  = Regex.match_alternatives alts s.
Proof.
  unfold Regex.match_alternatives.
  induction alts as [|pat alts IH]; cbn [existsb]; [reflexivity|].
  now rewrite IH, match_literal_lower.
Qed.

Lemma test_lower (alts : list string) (s : string) :
  Regex.test alts (to_lower s) = Regex.test alts s.
Proof.
  induction s as [|c s IH]; [reflexivity|].
  pose proof (match_alternatives_lower alts (String c s)) as Hm.
  cbn [to_lower] in Hm |- *. cbn [Regex.test]. now rewrite Hm, IH.
Qed.

Lemma to_lower_length (s : string) :
  String.length (to_lower s) = String.length s.
Proof. induction s; simpl; auto. Qed.

Lemma append_length (a b : string) :
  String.length (a ++ b) = String.length a + String.length b.
Proof. induction a; simpl; auto. Qed.

Lemma signature_length (sig : string) :
  In sig container_signatures -> 6 <= String.length sig.
Proof.
  simpl. intros [<-|[<-|[<-|[<-|[]]]]]; simpl; lia.
Qed.

End DetectionFootprint.

Section ResolveFootprint.

Lemma resolve_reads (opts : FastifyGracelyOptions) (r : Realm) :
  exists env es,
    resolve opts r = (Return env, log es r)
    /\ forallb is_read es = true
    /\ (env = or_default "auto" (runtime opts) /\ env <> "auto"
        \/ env = "kubernetes" \/ env = "container" \/ env = "local").
Proof.
  unfold resolve.
  destruct (or_default "auto" (runtime opts) =? "auto") eqn:E.
  - rewrite detect_run.
    destruct (truthy_env _); [eauto 8|].
    destruct (env_is _ _); [eauto 8|].
    destruct (truthy_string _); [|eauto 9].
    eexists _, _. split; [reflexivity|]. split; [reflexivity|].
    destruct (marker_verdict_range r
                (or_default "/proc/1/cgroup" (containerEndpoint opts)))
      as [-> | ->]; auto.
  - exists (or_default "auto" (runtime opts)), [].
    unfold ret. rewrite log_nil. apply String.eqb_neq in E. auto.
Qed.

Lemma log_inj (a b : list Event) (r : Realm) : log a r = log b r -> a = b.
Proof.
  intros H. apply (f_equal trace) in H. simpl in H.
  now apply app_inv_head in H.
Qed.

Lemma reads_not_invoked (f : nat) (es : list Event) :
  forallb is_read es = true -> invoked f es = false.
Proof.
  unfold invoked. induction es as [|e es IH]; simpl; [reflexivity|].
  intros H. apply andb_true_iff in H as [He Hes].
  rewrite (IH Hes). now destruct e.
Qed.

End ResolveFootprint.

(** X1: the runtime the status object reports is never ['auto']: where the
    options give a runtime other than ['auto'] it is that runtime, and
    where they give ['auto'] or none it is one of ['kubernetes'],
    ['container'], ['local']. *)
Theorem reported_runtime_is_never_auto (opts : FastifyGracelyOptions)
  (w : World) :
  exists env,
    query_runtime (registered opts w) = Some (VString env)
    /\ env <> "auto"
    /\ match runtime opts with
       | Some s =>
           if s =? "auto"
           then env = "kubernetes" \/ env = "container" \/ env = "local"
           else env = s
       | None => env = "kubernetes" \/ env = "container" \/ env = "local"
       end.
Proof.
  destruct (registered_wired opts w) as (env & es & Hres & _ & Hw).
  exists env. split; [now apply (query_runtime_wired opts env)|].
  assert (Hdet : forall ep,
             detectGracelyRuntime ep (boot w) = (Return env, log es (boot w)) ->
             env <> "auto"
             /\ (env = "kubernetes" \/ env = "container" \/ env = "local")).
  { intros ep Hd.
    destruct (detect_range ep (boot w)) as (v & es' & Hd' & Hv).
    rewrite Hd in Hd'. injection Hd' as -> _.
    split; [|exact Hv]. destruct Hv as [-> | [-> | ->]]; discriminate. }
  unfold resolve in Hres.
  destruct (runtime opts) as [s|]; simpl in Hres.
  - destruct (s =? "auto") eqn:E.
    + exact (Hdet _ Hres).
    + unfold ret in Hres. injection Hres as <- _.
      apply String.eqb_neq in E. auto.
  - exact (Hdet _ Hres).
Qed.

(** X2: a runtime given in the options and other than ['auto'] is taken
    without detection: registration does nothing observable but call
    [done()], and neither then nor later is a variable or a file read. *)
Theorem explicit_runtime_skips_detection (opts : FastifyGracelyOptions)
  (w : World) (s : string) (acts : list Action) :
  runtime opts = Some s ->
  s <> "auto" ->
  trace (registered opts w) = [Done]
  /\ env_reads (trace (perform_all acts (registered opts w))) = []
  /\ fs_reads (trace (perform_all acts (registered opts w))) = [].
Proof.
  intros Hs Hne.
  assert (Hr : registered opts w = wired opts s [Done] w).
  { unfold registered.
    rewrite (plugin_run opts w s []); [reflexivity|].
    now apply resolve_explicit. }
  assert (Hw : wired_up opts s (registered opts w)).
  { rewrite Hr. apply wired_up_wired. }
  destruct (perform_all_wired _ _ acts _ Hw) as (es & [Hq1 Hq2] & Ht & _).
  rewrite Ht, env_reads_app, fs_reads_app, Hq1, Hq2, Hr.
  repeat split; reflexivity.
Qed.

Lemma explicit_runtime_skips_detection_witness :
  trace (registered error_only flag_world) = [Done]
  /\ env_reads (trace (perform_all [FastifyReady; BeginShutdown]
                         (registered error_only flag_world))) = []
  /\ fs_reads (trace (perform_all [FastifyReady; BeginShutdown]
                        (registered error_only flag_world))) = [].
Proof.
  apply (explicit_runtime_skips_detection error_only flag_world "local"
           [FastifyReady; BeginShutdown]).
  - reflexivity.
  - discriminate.
Defined.

(** X3: detection changes nothing but the trace, and what it adds to the
    trace is its reads and nothing else: [KUBERNETES_SERVICE_HOST] first,
    then [K8S] only when the former is falsy, then, last and only when
    neither variable decides and the endpoint is not empty, one read of the
    file at the endpoint. *)
Theorem detection_footprint (ep : string) (r : Realm) :
  exists v,
    detectGracelyRuntime ep r =
      (Return v,
       log (EnvGet "KUBERNETES_SERVICE_HOST"
            :: (if truthy_env (service_host r) then []
                else EnvGet "K8S"
                     :: (if env_is (k8s_flag r) "true" then []
                         else if truthy_string ep then [FsRead ep]
                              else [])))
         r).
Proof.
  rewrite detect_run.
  destruct (truthy_env _); [eauto|].
  destruct (env_is _ _); [eauto|].
  destruct (truthy_string ep); eauto.
Qed.

(** X4: when neither variable decides for kubernetes, detection returns
    ['container'] exactly when the endpoint is not empty, the file there can
    be read and its contents contain one of the signatures in any mix of
    case; a file without a signature gives ['local']. *)
Theorem container_exactly_on_signature (ep : string) (r : Realm) :
  truthy_env (service_host r) = false ->
  env_is (k8s_flag r) "true" = false ->
  (fst (detectGracelyRuntime ep r) = Return "container"
   <-> ep <> ""
       /\ exists content sig,
            fst (readFileSync ep r) = Return content
            /\ In sig container_signatures
            /\ contains_ignoring_case sig content)
  /\ (fst (detectGracelyRuntime ep r) <> Return "container"
      -> fst (detectGracelyRuntime ep r) = Return "local").
Proof.
  intros Hhost Hflag. rewrite detect_run, Hhost, Hflag, readFileSync_run.
  unfold truthy_string, marker_verdict.
  destruct (ep =? "") eqn:Hep; simpl.
  - apply String.eqb_eq in Hep. split; [|reflexivity].
    split; [discriminate|]. now intros [? _].
  - apply String.eqb_neq in Hep.
    destruct (files (world r) !! ep) as [[c|e]|]; simpl.
    + destruct (Regex.test container_signatures c) eqn:Ht.
      * split; [|intros H; now elim H]. split; [|intros _; reflexivity].
        intros _. split; [exact Hep|].
        apply test_contains in Ht as (sig & Hin & Hc).
        exists c, sig. auto.
      * split; [|reflexivity]. split; [discriminate|].
        intros (_ & content & sig & Hc & Hin & Hsub).
        injection Hc as <-.
        assert (Regex.test container_signatures c = true) as Ht'
          by (apply test_contains; exists sig; auto).
        congruence.
    + split; [|reflexivity]. split; [discriminate|].
      now intros (_ & ? & ? & ? & _).
    + split; [|reflexivity]. split; [discriminate|].
      now intros (_ & ? & ? & ? & _).
Qed.

Lemma container_exactly_on_signature_witness :
  (fst (detectGracelyRuntime "/proc/1/cgroup" (boot docker_world))
   = Return "container"
   <-> "/proc/1/cgroup" <> ""
       /\ exists content sig,
            fst (readFileSync "/proc/1/cgroup" (boot docker_world))
            = Return content
            /\ In sig container_signatures
            /\ contains_ignoring_case sig content)
  /\ (fst (detectGracelyRuntime "/proc/1/cgroup" (boot docker_world))
      <> Return "container"
      -> fst (detectGracelyRuntime "/proc/1/cgroup" (boot docker_world))
         = Return "local").
Proof.
  apply (container_exactly_on_signature "/proc/1/cgroup" (boot docker_world));
    reflexivity.
Defined.

(** X5: the verdict does not depend on the case of the letters in the
    marker file: with the same environment variables, two files that are
    equal once put in lower case give the same detection result. *)
Theorem detection_ignores_case (ep c1 c2 : string) (r1 r2 : Realm) :
  process_env (world r1) = process_env (world r2) ->
  fst (readFileSync ep r1) = Return c1 ->
  fst (readFileSync ep r2) = Return c2 ->
  to_lower c1 = to_lower c2 ->
  fst (detectGracelyRuntime ep r1) = fst (detectGracelyRuntime ep r2).
Proof.
  intros Henv H1 H2 Hc. rewrite !detect_run.
  unfold service_host, k8s_flag. rewrite Henv.
  destruct (truthy_env _); [reflexivity|].
  destruct (env_is _ _); [reflexivity|].
  destruct (truthy_string ep); [|reflexivity]. simpl.
  rewrite readFileSync_run in H1, H2. simpl in H1, H2.
  unfold marker_verdict.
  destruct (files (world r1) !! ep) as [[a|?]|]; try discriminate.
  destruct (files (world r2) !! ep) as [[b|?]|]; try discriminate.
  injection H1 as ->. injection H2 as ->.
  now rewrite <- (test_lower _ c1), <- (test_lower _ c2), Hc.
Qed.

Lemma detection_ignores_case_witness :
  fst (detectGracelyRuntime "/proc/1/cgroup" (boot docker_world))
  = fst (detectGracelyRuntime "/proc/1/cgroup" (boot shouted_docker_world)).
Proof.
  apply (detection_ignores_case "/proc/1/cgroup"
           "0::/system.slice/Docker-3f2a" "0::/SYSTEM.SLICE/DOCKER-3F2A");
    reflexivity.
Defined.

(** X6: with runtime ['auto'], when neither variable decides and the
    endpoint is not the empty string, exactly one file is read: the
    configured [containerEndpoint], or ['/proc/1/cgroup'] when the option
    is absent. *)
Theorem marker_path_is_the_configured_one (opts : FastifyGracelyOptions)
  (r : Realm) :
  or_default "auto" (runtime opts) = "auto" ->
  truthy_env (service_host r) = false ->
  env_is (k8s_flag r) "true" = false ->
  containerEndpoint opts <> Some "" ->
  exists v r',
    resolve opts r = (Return v, r')
    /\ fs_reads (trace r') =
         (fs_reads (trace r)
          ++ [match containerEndpoint opts with
              | Some path => path
              | None => "/proc/1/cgroup"
              end])%list.
Proof.
  intros Hauto Hhost Hflag Hep. unfold resolve. rewrite Hauto. simpl.
  rewrite detect_run, Hhost, Hflag.
  assert (truthy_string (or_default "/proc/1/cgroup" (containerEndpoint opts))
          = true) as ->.
  { destruct (containerEndpoint opts) as [p|]; [|reflexivity]. simpl.
    unfold truthy_string. apply negb_true_iff, String.eqb_neq.
    intros ->. now apply Hep. }
  eexists _, _. split; [reflexivity|].
  unfold log; simpl. rewrite fs_reads_app. reflexivity.
Qed.

Lemma marker_path_is_the_configured_one_witness :
  exists v r',
    resolve default_options (boot docker_world) = (Return v, r')
    /\ fs_reads (trace r') =
         (fs_reads (trace (boot docker_world)) ++ ["/proc/1/cgroup"])%list.
Proof.
  apply (marker_path_is_the_configured_one default_options
           (boot docker_world)); try reflexivity.
  discriminate.
Defined.

(** X9: a marker file shorter than six characters, the empty file among
    them, holds no signature: when neither variable decides, detection
    returns ['local']. *)
Theorem short_marker_is_local (ep content : string) (r : Realm) :
  truthy_env (service_host r) = false ->
  env_is (k8s_flag r) "true" = false ->
  fst (readFileSync ep r) = Return content ->
  String.length content < 6 ->
  fst (detectGracelyRuntime ep r) = Return "local".
Proof.
  intros Hhost Hflag Hread Hlen.
  rewrite detect_run, Hhost, Hflag.
  destruct (truthy_string ep); [|reflexivity]. simpl.
  rewrite readFileSync_run in Hread. simpl in Hread.
  unfold marker_verdict.
  destruct (files (world r) !! ep) as [[c|?]|]; try discriminate.
  injection Hread as ->.
  destruct (Regex.test container_signatures content) eqn:Ht; [|reflexivity].
  apply test_contains in Ht as (sig & Hin & pre & mid & suf & -> & Hm).
  apply signature_length in Hin.
  apply (f_equal String.length) in Hm. rewrite !to_lower_length in Hm.
  rewrite !append_length in Hlen. lia.
Qed.

Lemma short_marker_is_local_witness :
  fst (detectGracelyRuntime "/proc/1/cgroup" (boot short_marker_world))
  = Return "local".
Proof.
  apply (short_marker_is_local "/proc/1/cgroup" "0::/"
           (boot short_marker_world)); try reflexivity.
  simpl. lia.
Defined.

(* ------------------------------------------------------------------------- *)
(** ** Further properties of the registered plugin                            *)
(* ------------------------------------------------------------------------- *)

(** X7: registration calls no user callback and logs nothing: what it
    leaves in the trace is the reads of detection, if any, and then
    [done()], once and last. *)
Theorem registration_is_silent (opts : FastifyGracelyOptions) (w : World) :
  exists es,
    trace (registered opts w) = (es ++ [Done])%list
    /\ forallb is_read es = true
    /\ forall f, invoked f (trace (registered opts w)) = false.
Proof.
  destruct (resolve_reads opts (boot w)) as (env & es & Hres & Hes & _).
  exists es. unfold registered.
  rewrite (plugin_run opts w env es Hres). simpl.
  split; [reflexivity|]. split; [exact Hes|].
  intros f. unfold invoked. rewrite existsb_app. simpl.
  rewrite orb_false_r. now apply reads_not_invoked.
Qed.



(* ------------------------------------------------------------------------- *)
(** ** User callbacks that throw                                              *)
(* ------------------------------------------------------------------------- *)

Section ThrowingCallbacks.

Variable opts : FastifyGracelyOptions.
Variable env : string.
Variable ends : nat -> list Value -> option Exn.

Lemma bind_ret_tt (m : M unit) (r : Realm) :
  bind m (fun _ => ret tt) r = m r.
Proof. unfold bind, ret. now destruct (m r) as [[[]|e] r']. Qed.












End ThrowingCallbacks.


